(** * AudioFileTranscriberApp: the interaction state machine of [src/App.tsx]

    A shallow embedding of the [App] component: its React state, the event
    handlers that update it, and the browser and remote services they talk to
    (clipboard, timers, the generative-AI client).  Handlers are state
    transformers on a [World]; the two asynchronous handlers take the answers
    of the remote service as arguments and return the trace of worlds that are
    observable at their suspension points. *)

From Stdlib Require Import String Ascii List NArith Bool Lia.
Import ListNotations.
Local Open Scope N_scope.

(** ** JavaScript strings

    A JavaScript string is a sequence of UTF-16 code units. *)

Definition jsstring := list N.

Module Utf.

(** Code points of a UTF-8 byte sequence; [need] continuation bytes are still
    expected for the code point accumulated in [acc]. *)
Fixpoint points (bs : list N) (need : nat) (acc : N) : list N :=
  match bs with
  | [] => []
  | b :: r =>
      match need with
      | O =>
          if b <? 128 then b :: points r 0 0
          else if b <? 224 then points r 1 (N.land b 31)
          else if b <? 240 then points r 2 (N.land b 15)
          else points r 3 (N.land b 7)
      | S O => (acc * 64 + N.land b 63) :: points r 0 0
      | S n => points r n (acc * 64 + N.land b 63)
      end
  end.

(** UTF-16 code units of one code point (a surrogate pair above the BMP). *)
Definition units (cp : N) : list N :=
  if cp <? 65536 then [cp]
  else let c := cp - 65536 in [55296 + c / 1024; 56320 + c mod 1024].

Definition bytes (s : string) : list N :=
  map N_of_ascii (list_ascii_of_string s).

End Utf.

(** The JavaScript string written by a source literal. *)
Definition js (s : string) : jsstring :=
  flat_map Utf.units (Utf.points (Utf.bytes s) 0 0).

(** [!s] on a string: only the empty string is falsy. *)
Definition falsy (s : jsstring) : bool :=
  match s with [] => true | _ :: _ => false end.

(** WhiteSpace and LineTerminator code units, which [String.prototype.trim]
    strips. *)
Definition isWhiteSpace (c : N) : bool :=
  (c =? 9) || (c =? 10) || (c =? 11) || (c =? 12) || (c =? 13) || (c =? 32)
  || (c =? 160) || (c =? 5760) || ((8192 <=? c) && (c <=? 8202))
  || (c =? 8232) || (c =? 8233) || (c =? 8239) || (c =? 8287)
  || (c =? 12288) || (c =? 65279).

Fixpoint trimStart (s : jsstring) : jsstring :=
  match s with
  | [] => []
  | c :: r => if isWhiteSpace c then trimStart r else s
  end.

Definition trimEnd (s : jsstring) : jsstring := rev (trimStart (rev s)).

Definition trim (s : jsstring) : jsstring := trimEnd (trimStart s).

(** ** Data model *)

Module Status.
Inductive t := idle | uploading | transcribing | error.
End Status.

Module PromptStatus.
Inductive t := idle | loading | error.
End PromptStatus.

(** The user's [File]: only its name and size are read by the component. *)
Record File := { name : jsstring; size : N }.

(** The component state, one field per [useState]. *)
Record App := {
  selectedFile : option File;
  transcription : jsstring;
  status : Status.t;
  error : option jsstring;
  copied : bool;
  prompt : jsstring;
  promptResponse : jsstring;
  promptStatus : PromptStatus.t;
  promptError : option jsstring;
  promptCopied : bool
}.

(** *** The remote service *)

(** What [ai.files.upload] resolves to. *)
Record UploadedFile := { mimeType : option jsstring; uri : option jsstring }.

(** A [GenerateContentResponse]; its [text] may be undefined.  The stream of
    [generateContentStream] yields values of the same type. *)
Record GenerateContentResponse := { text : option jsstring }.

(** A thrown [Error]. *)
Record JsError := { message : jsstring }.

(** How an awaited promise settles. *)
Inductive Settled (A : Type) :=
| Resolved (a : A)
| Rejected (e : JsError).
Arguments Resolved {A} a.
Arguments Rejected {A} e.

(** An opened response stream: the chunks it yields, then either its end or
    an exception. *)
Record ResponseStream := {
  chunks : list GenerateContentResponse;
  failure : option JsError
}.

Inductive Part :=
| textPart (t : jsstring)
| fileData (mime : option jsstring) (fileUri : option jsstring).

(** The calls issued to the remote service. *)
Inductive Request :=
| FilesUpload (file : File)
| GenerateContent (model : jsstring) (parts : list Part)
| GenerateContentStream (model : jsstring) (contents : jsstring)
    (systemInstruction : jsstring).

(** *** Timers *)

Inductive Callback := ResetCopied | ResetPromptCopied.

Record Timer := { due : N; callback : Callback }.

(** *** The world: the component and its surroundings *)

Record World := {
  app : App;
  apiKey : option jsstring;        (* process.env.API_KEY *)
  fileInput : option jsstring;     (* fileInputRef.current?.value *)
  clipboard : list jsstring;       (* texts written, oldest first *)
  now : N;                         (* milliseconds *)
  timers : list Timer;             (* pending timeouts, by due time *)
  requests : list Request;         (* remote calls issued, oldest first *)
  console : list JsError           (* console.error *)
}.

Definition with_app (f : App -> App) (w : World) : World :=
  {| app := f (app w); apiKey := apiKey w; fileInput := fileInput w;
     clipboard := clipboard w; now := now w; timers := timers w;
     requests := requests w; console := console w |}.

(** *** State setters *)

Definition setSelectedFile (v : option File) : World -> World :=
  with_app (fun a =>
    {| selectedFile := v; transcription := transcription a;
       status := status a; error := error a; copied := copied a;
       prompt := prompt a; promptResponse := promptResponse a;
       promptStatus := promptStatus a; promptError := promptError a;
       promptCopied := promptCopied a |}).

Definition setTranscription (v : jsstring) : World -> World :=
  with_app (fun a =>
    {| selectedFile := selectedFile a; transcription := v;
       status := status a; error := error a; copied := copied a;
       prompt := prompt a; promptResponse := promptResponse a;
       promptStatus := promptStatus a; promptError := promptError a;
       promptCopied := promptCopied a |}).

Definition setStatus (v : Status.t) : World -> World :=
  with_app (fun a =>
    {| selectedFile := selectedFile a; transcription := transcription a;
       status := v; error := error a; copied := copied a;
       prompt := prompt a; promptResponse := promptResponse a;
       promptStatus := promptStatus a; promptError := promptError a;
       promptCopied := promptCopied a |}).

Definition setError (v : option jsstring) : World -> World :=
  with_app (fun a =>
    {| selectedFile := selectedFile a; transcription := transcription a;
       status := status a; error := v; copied := copied a;
       prompt := prompt a; promptResponse := promptResponse a;
       promptStatus := promptStatus a; promptError := promptError a;
       promptCopied := promptCopied a |}).

Definition setCopied (v : bool) : World -> World :=
  with_app (fun a =>
    {| selectedFile := selectedFile a; transcription := transcription a;
       status := status a; error := error a; copied := v;
       prompt := prompt a; promptResponse := promptResponse a;
       promptStatus := promptStatus a; promptError := promptError a;
       promptCopied := promptCopied a |}).

Definition setPrompt (v : jsstring) : World -> World :=
  with_app (fun a =>
    {| selectedFile := selectedFile a; transcription := transcription a;
       status := status a; error := error a; copied := copied a;
       prompt := v; promptResponse := promptResponse a;
       promptStatus := promptStatus a; promptError := promptError a;
       promptCopied := promptCopied a |}).

(** [setPromptResponse] is also called with an updater, [prev => ...]. *)
Definition updatePromptResponse (f : jsstring -> jsstring) : World -> World :=
  with_app (fun a =>
    {| selectedFile := selectedFile a; transcription := transcription a;
       status := status a; error := error a; copied := copied a;
       prompt := prompt a; promptResponse := f (promptResponse a);
       promptStatus := promptStatus a; promptError := promptError a;
       promptCopied := promptCopied a |}).

Definition setPromptResponse (v : jsstring) : World -> World :=
  updatePromptResponse (fun _ => v).

Definition setPromptStatus (v : PromptStatus.t) : World -> World :=
  with_app (fun a =>
    {| selectedFile := selectedFile a; transcription := transcription a;
       status := status a; error := error a; copied := copied a;
       prompt := prompt a; promptResponse := promptResponse a;
       promptStatus := v; promptError := promptError a;
       promptCopied := promptCopied a |}).

Definition setPromptError (v : option jsstring) : World -> World :=
  with_app (fun a =>
    {| selectedFile := selectedFile a; transcription := transcription a;
       status := status a; error := error a; copied := copied a;
       prompt := prompt a; promptResponse := promptResponse a;
       promptStatus := promptStatus a; promptError := v;
       promptCopied := promptCopied a |}).

Definition setPromptCopied (v : bool) : World -> World :=
  with_app (fun a =>
    {| selectedFile := selectedFile a; transcription := transcription a;
       status := status a; error := error a; copied := copied a;
       prompt := prompt a; promptResponse := promptResponse a;
       promptStatus := promptStatus a; promptError := promptError a;
       promptCopied := v |}).

(** *** Effects on the surroundings *)

Definition setFileInput (v : option jsstring) (w : World) : World :=
  {| app := app w; apiKey := apiKey w; fileInput := v;
     clipboard := clipboard w; now := now w; timers := timers w;
     requests := requests w; console := console w |}.

(** [navigator.clipboard.writeText(t)] *)
Definition writeText (t : jsstring) (w : World) : World :=
  {| app := app w; apiKey := apiKey w; fileInput := fileInput w;
     clipboard := clipboard w ++ [t]; now := now w; timers := timers w;
     requests := requests w; console := console w |}.

(** A call to the remote service leaves the client. *)
Definition issue (r : Request) (w : World) : World :=
  {| app := app w; apiKey := apiKey w; fileInput := fileInput w;
     clipboard := clipboard w; now := now w; timers := timers w;
     requests := requests w ++ [r]; console := console w |}.

(** [console.error(err)] *)
Definition consoleError (e : JsError) (w : World) : World :=
  {| app := app w; apiKey := apiKey w; fileInput := fileInput w;
     clipboard := clipboard w; now := now w; timers := timers w;
     requests := requests w; console := console w ++ [e] |}.

(** The timer queue is kept by due time, a new timer behind those due at the
    same instant. *)
Fixpoint enqueue (t : Timer) (q : list Timer) : list Timer :=
  match q with
  | [] => [t]
  | u :: r => if due u <=? due t then u :: enqueue t r else t :: q
  end.

(** [setTimeout(cb, delay)] *)
Definition setTimeout (cb : Callback) (delay : N) (w : World) : World :=
  {| app := app w; apiKey := apiKey w; fileInput := fileInput w;
     clipboard := clipboard w; now := now w;
     timers := enqueue {| due := now w + delay; callback := cb |} (timers w);
     requests := requests w; console := console w |}.

Definition fire (cb : Callback) : World -> World :=
  match cb with
  | ResetCopied => setCopied false
  | ResetPromptCopied => setPromptCopied false
  end.

(** [dt] milliseconds pass with no user event: every timer due by then fires,
    in queue order, and leaves the queue. *)
Definition elapse (dt : N) (w : World) : World :=
  let t := now w + dt in
  let ready := filter (fun u => due u <=? t) (timers w) in
  let w' := fold_left (fun x u => fire (callback u) x) ready w in
  {| app := app w'; apiKey := apiKey w'; fileInput := fileInput w';
     clipboard := clipboard w'; now := t;
     timers := filter (fun u => negb (due u <=? t)) (timers w);
     requests := requests w'; console := console w' |}.

(** *** The client, [useMemo] over the configured key *)

Record GoogleGenAI := { key : jsstring }.

Definition ai (w : World) : option GoogleGenAI :=
  match apiKey w with
  | None => None
  | Some k => if falsy k then None else Some {| key := k |}
  end.

(** ** The handlers *)

(** Statements run top to bottom: [w |> f |> g] is [f] then [g]. *)
Notation "w |> f" := (f w) (at level 45, left associativity, only parsing).

Definition resetPromptState (w : World) : World :=
  w |> setPrompt []
    |> setPromptResponse []
    |> setPromptError None
    |> setPromptStatus PromptStatus.idle
    |> setPromptCopied false.

(** [files0] is [event.target.files?.[0]]. *)
Definition handleFileChange (files0 : option File) (w : World) : World :=
  match files0 with
  | Some file =>
      w |> setError None
        |> setTranscription []
        |> setSelectedFile (Some file)
        |> setStatus Status.idle
        |> resetPromptState
  | None => w
  end.

(** [files0] is [event.dataTransfer.files?.[0]]. *)
Definition handleFileDrop (files0 : option File) (w : World) : World :=
  match files0 with
  | Some file =>
      w |> setError None
        |> setTranscription []
        |> setSelectedFile (Some file)
        |> setStatus Status.idle
        |> resetPromptState
  | None => w
  end.

Definition removeFile (w : World) : World :=
  let w' :=
    w |> setSelectedFile None
      |> setTranscription []
      |> setStatus Status.idle
      |> setCopied false
      |> resetPromptState in
  match fileInput w' with
  | Some _ => setFileInput (Some []) w'
  | None => w'
  end.

Definition handleCopy (w : World) : World :=
  if falsy (transcription (app w)) then w
  else
    w |> writeText (transcription (app w))
      |> setCopied true
      |> setTimeout ResetCopied 2500.

Definition handlePromptCopy (w : World) : World :=
  if falsy (promptResponse (app w)) then w
  else
    w |> writeText (promptResponse (app w))
      |> setPromptCopied true
      |> setTimeout ResetPromptCopied 2500.

(** *** [handleTranscribe] *)

Definition model_name : jsstring := js "gemini-2.5-pro".

Definition transcribe_instruction : jsstring :=
  js "Transcribe this long audio recording in its entirety. Provide a high-quality, accurate transcript of all speech.".

Definition no_file_object : JsError :=
  {| message := js "File upload failed: The API did not return a file object." |}.

(** The [catch] block of [handleTranscribe]. *)
Definition transcribe_catch (err : JsError) (w : World) : World :=
  w |> consoleError err
    |> setError (Some (js "An error occurred: " ++ message err
                       ++ js ". If you are uploading a large file, please ensure you have a stable internet connection."))
    |> setStatus Status.error.

(** A run of an asynchronous handler: the worlds observable while it is
    suspended at an [await], oldest first, and the world it leaves. *)
Record Run := { suspended : list World; finished : World }.

Definition done (w : World) : Run := {| suspended := []; finished := w |}.

(** [up] and [gen] are what the upload and the generation request settle to
    (the second is only consulted when the request is made). *)
Definition handleTranscribe
    (up : Settled (option UploadedFile))
    (gen : Settled GenerateContentResponse) (w : World) : Run :=
  match selectedFile (app w) with
  | None => done (setError (Some (js "Please select an audio file first.")) w)
  | Some file =>
  match ai w with
  | None =>
      done (setError (Some (js "API key is not configured. Please set the API_KEY environment variable.")) w)
  | Some _ =>
      let w1 :=
        w |> setStatus Status.uploading
          |> setError None
          |> setTranscription []
          |> setCopied false
          |> resetPromptState
          |> issue (FilesUpload file) in
      match up with
      | Rejected err =>
          {| suspended := [w1]; finished := transcribe_catch err w1 |}
      | Resolved None =>
          {| suspended := [w1];
             finished := transcribe_catch no_file_object w1 |}
      | Resolved (Some uploadedFile) =>
          let audioPart :=
            fileData (mimeType uploadedFile) (uri uploadedFile) in
          let textPart' := textPart transcribe_instruction in
          let w2 :=
            w1 |> setStatus Status.transcribing
               |> issue (GenerateContent model_name [textPart'; audioPart]) in
          match gen with
          | Rejected err =>
              {| suspended := [w1; w2]; finished := transcribe_catch err w2 |}
          | Resolved response =>
              let w3 :=
                match text response with
                | Some resultText =>
                    if falsy resultText
                    then setError (Some (js "Could not get a transcription. The response was empty.")) w2
                    else setTranscription resultText w2
                | None =>
                    setError (Some (js "Could not get a transcription. The response was empty.")) w2
                end in
              {| suspended := [w1; w2]; finished := setStatus Status.idle w3 |}
          end
      end
  end
  end.

(** *** [handlePromptSubmit] *)

Definition LESSON_GENERATION_SYSTEM_PROMPT : jsstring :=
  js "**Role:** You are acting as a highly experienced Artificial Intelligence (AI) and Software Testing Expert who has vast knowledge in Generative AI tools and their application in the software development lifecycle.

**Goal:** Your task is to transform the provided video transcript/text into a clear, comprehensive, and engaging lesson content for an educational course.

**Instruction Guidelines:**
1.  **Maintain Expert Tone:** Write the content in an **accessible, clear, and professional** tone, suitable for a course covering technical subjects related to AI and testing.
2.  **Adherence to Source:** The core content must be **strictly based on the information provided in the input text/transcript**. Do not invent main topics.
3.  **Enhancement for Clarity:** To enhance understanding and provide practical context, you are **encouraged to introduce short, relevant examples, analogies, or brief supplementary explanations** that support and elaborate on the points made in the transcript. These additions must be concise and directly related to the topic.
4.  **Language Output:** You must deliver the final lesson content **entirely in Turkish (Türkçe)**, ensuring the translation is natural and high-quality.
5.  **Target Audience:** The content is intended for professionals and students seeking to understand how to effectively integrate AI into their testing and development processes.

**Structure Template for Output:**
The final Turkish output must follow this structured template for every lesson:

### 🇹🇷 Ders İçeriği Başlığı (Lesson Content Title)

**I. Giriş ve Konuya Genel Bakış (Introduction and Overview)**
* Bu dersin temel amacı ve hedefleri.
* Konunun genel AI/Test sürecindeki yeri.

**II. Temel Kavramlar ve Tanımlar (Core Concepts and Definitions)**
* Konunun anahtar terimlerinin net ve anlaşılır tanımları.
* Transkriptteki ana fikirlerin özetlenmesi.

**III. Detaylı Anlatım ve Uygulamalar (Detailed Explanation and Applications)**
* Transkriptteki adımların veya detaylı açıklamaların madde madde veya paragraflar halinde sunulması.
* **[Kısa Örnek/Analoji Eklenecek Bölüm]** (Insert short, relevant example or analogy here to improve comprehension.)

**IV. Uzman Görüşü ve Pratik İpuçları (Expert Insight and Practical Tips)**
* Konuyla ilgili uzmanın deneyimlerinden damıtılmış kısa bir ipucu veya dikkat edilmesi gereken bir nokta.

**V. Özet ve Sonuç (Summary and Conclusion)**
* Dersin en önemli çıkarımlarının 2-3 madde ile özetlenmesi.".

(** The template literal sent as [contents]. *)
Definition userPromptContents (transcription' prompt' : jsstring) : jsstring :=
  js "Lütfen aşağıdaki transkripte göre ders içeriğini oluşturun.

--- TRANSKRİPT ---
" ++ transcription' ++ js "

--- KULLANICI TALİMATLARI / DERS BAŞLIĞI ---
" ++ prompt' ++ js "
".

(** What [prev + chunk.text] appends: an undefined [text] is rendered by the
    string concatenation as the word [undefined]. *)
Definition chunk_text (chunk : GenerateContentResponse) : jsstring :=
  match text chunk with
  | Some t => t
  | None => js "undefined"
  end.

(** The [catch] block of [handlePromptSubmit]. *)
Definition prompt_catch (err : JsError) (w : World) : World :=
  w |> consoleError err
    |> setPromptError (Some (js "Bir hata oluştu: " ++ message err))
    |> setPromptStatus PromptStatus.error.

(** The [for await] loop: the worlds after each chunk has been appended. *)
Fixpoint for_await (cs : list GenerateContentResponse) (w : World)
  : list World :=
  match cs with
  | [] => []
  | chunk :: rest =>
      let w' := updatePromptResponse (fun prev => prev ++ chunk_text chunk) w in
      w' :: for_await rest w'
  end.

(** [opened] is what the call to [generateContentStream] settles to.  The
    handler is suspended once on that call and then once per chunk, so
    [suspended] holds, at index [n], the world in which [n] chunks have been
    consumed. *)
Definition handlePromptSubmit (opened : Settled ResponseStream) (w : World)
  : Run :=
  if falsy (trim (prompt (app w))) || falsy (transcription (app w)) then
    done (setPromptError (Some (js "Lütfen bir talimat veya başlık girin.")) w)
  else
  match ai w with
  | None => done (setPromptError (Some (js "API anahtarı yapılandırılmamış.")) w)
  | Some _ =>
      let w1 :=
        w |> setPromptStatus PromptStatus.loading
          |> setPromptError None
          |> setPromptResponse []
          |> setPromptCopied false
          |> issue (GenerateContentStream model_name
                      (userPromptContents (transcription (app w))
                                          (prompt (app w)))
                      LESSON_GENERATION_SYSTEM_PROMPT) in
      match opened with
      | Rejected err =>
          {| suspended := [w1]; finished := prompt_catch err w1 |}
      | Resolved responseStream =>
          let ws := for_await (chunks responseStream) w1 in
          let w2 := last ws w1 in
          {| suspended := w1 :: ws;
             finished :=
               match failure responseStream with
               | None => setPromptStatus PromptStatus.idle w2
               | Some err => prompt_catch err w2
               end |}
      end
  end.

(** ** Initial and sample worlds *)

(** The initial values passed to [useState]. *)
Definition initialApp : App :=
  {| selectedFile := None; transcription := []; status := Status.idle;
     error := None; copied := false; prompt := []; promptResponse := [];
     promptStatus := PromptStatus.idle; promptError := None;
     promptCopied := false |}.

Definition initialWorld (apiKey' : option jsstring) : World :=
  {| app := initialApp; apiKey := apiKey'; fileInput := Some [];
     clipboard := []; now := 0; timers := []; requests := []; console := [] |}.

Definition lecture : File := {| name := js "lecture.mp3"; size := 5242880 |}.

Definition lecture_uploaded : UploadedFile :=
  {| mimeType := Some (js "audio/mpeg"); uri := Some (js "files/lecture") |}.

(** A configured application with [lecture] selected. *)
Definition selected : World :=
  handleFileChange (Some lecture) (initialWorld (Some (js "secret"))).

(** ... and with its transcript obtained. *)
Definition transcribed : World :=
  finished (handleTranscribe (Resolved (Some lecture_uploaded))
              (Resolved {| text := Some (js "Hello world.") |}) selected).

(** The generation requests among the calls issued so far. *)
Definition generation_requests (w : World) : list (jsstring * list Part) :=
  flat_map (fun r => match r with
                     | GenerateContent m ps => [(m, ps)]
                     | _ => []
                     end) (requests w).

(** How the upload phase fails: the call throws, or it returns no file
    object and the handler throws [no_file_object] itself. *)
Definition upload_failure (up : Settled (option UploadedFile))
  : option JsError :=
  match up with
  | Rejected err => Some err
  | Resolved None => Some no_file_object
  | Resolved (Some _) => None
  end.

(** [!response.text] *)
Definition no_text (response : GenerateContentResponse) : bool :=
  match text response with
  | Some t => falsy t
  | None => true
  end.

(** The instruction of the generation request as the specification words
    it. *)
Definition spec_instruction : jsstring :=
  js "transcribe this audio recording in its entirety, accurately and completely".

(** A pending reset of the flag [cb] that is due by time [t]. *)
Definition Callback_eqb (a b : Callback) : bool :=
  match a, b with
  | ResetCopied, ResetCopied => true
  | ResetPromptCopied, ResetPromptCopied => true
  | _, _ => false
  end.

Definition pending (cb : Callback) (t : N) (w : World) : bool :=
  existsb (fun u => Callback_eqb (callback u) cb && (due u <=? t)) (timers w).

(** The copied-flag that the callback [cb] resets. *)
Definition flag (cb : Callback) (a : App) : bool :=
  match cb with
  | ResetCopied => copied a
  | ResetPromptCopied => promptCopied a
  end.

(** A world with the transcript "Hi" on display, whose copy button was
    pressed 2000 ms ago. *)
Definition copied_earlier : World :=
  elapse 2000 (handleCopy (setTranscription (js "Hi") selected)).

(** A stream chunk that carries the text [t]. *)
Definition text_chunk (t : jsstring) : GenerateContentResponse :=
  {| text := Some t |}.

(** [transcribed] with an instruction typed into the prompt box. *)
Definition prompted : World :=
  setPrompt (js "Summarize in 3 bullets") transcribed.

Definition summary_chunks : list jsstring :=
  [js "### Summary
"; js "- point one
"; js "- point two
"].

(** What a component state looks like when [file] has just been selected. *)
Definition selection_reset (file : File) (a : App) : Prop :=
  selectedFile a = Some file
  /\ transcription a = []
  /\ error a = None
  /\ status a = Status.idle
  /\ prompt a = prompt initialApp
  /\ promptResponse a = promptResponse initialApp
  /\ promptStatus a = promptStatus initialApp
  /\ promptError a = promptError initialApp
  /\ promptCopied a = promptCopied initialApp.

(** ** Derived flags of the rendering *)

Definition Status_eqb (a b : Status.t) : bool :=
  match a, b with
  | Status.idle, Status.idle => true
  | Status.uploading, Status.uploading => true
  | Status.transcribing, Status.transcribing => true
  | Status.error, Status.error => true
  | _, _ => false
  end.

Definition PromptStatus_eqb (a b : PromptStatus.t) : bool :=
  match a, b with
  | PromptStatus.idle, PromptStatus.idle => true
  | PromptStatus.loading, PromptStatus.loading => true
  | PromptStatus.error, PromptStatus.error => true
  | _, _ => false
  end.

(** [['uploading', 'transcribing'].includes(status)] *)
Definition isProcessing (a : App) : bool :=
  existsb (Status_eqb (status a)) [Status.uploading; Status.transcribing].

Definition getButtonText (a : App) : jsstring :=
  match status a with
  | Status.uploading => js "Uploading & Processing..."
  | Status.transcribing => js "Transcribing..."
  | _ => js "Transcribe Audio"
  end.

(** [disabled] of the transcribe button: [!selectedFile || isProcessing]. *)
Definition transcribeDisabled (a : App) : bool :=
  match selectedFile a with None => true | Some _ => false end
  || isProcessing a.

(** [disabled] of the submit button:
    [!prompt.trim() || promptStatus === 'loading']. *)
Definition submitDisabled (a : App) : bool :=
  falsy (trim (prompt a))
  || PromptStatus_eqb (promptStatus a) PromptStatus.loading.

(** The follow-up prompt state holds the initial values of its [useState]s. *)
Definition lesson_initial (a : App) : Prop :=
  prompt a = prompt initialApp
  /\ promptResponse a = promptResponse initialApp
  /\ promptStatus a = promptStatus initialApp
  /\ promptError a = promptError initialApp
  /\ promptCopied a = promptCopied initialApp.

(** The transcription side of the component and the surroundings that the
    follow-up prompt never touches. *)
Definition transcription_side (w : World)
  : option File * jsstring * Status.t * option jsstring * bool * jsstring
    * (list jsstring * N * list Timer * option jsstring) :=
  (selectedFile (app w), transcription (app w), status (app w),
   error (app w), copied (app w), prompt (app w),
   (clipboard w, now w, timers w, fileInput w)).

(** [lecture] selected in an application without an API key. *)
Definition unconfigured : World :=
  handleFileChange (Some lecture) (initialWorld None).

(** [x] differs from [w] in the prompt response at most. *)
Definition same_but_response (w x : World) : Prop :=
  transcription_side x = transcription_side w
  /\ promptStatus (app x) = promptStatus (app w)
  /\ promptError (app x) = promptError (app w)
  /\ promptCopied (app x) = promptCopied (app w)
  /\ requests x = requests w
  /\ console x = console w.

(** * Properties *)

Arguments js : simpl never.

(** ** Transcription *)

Section Transcribe.

Variables (w : World) (file : File) (client : GoogleGenAI).
Hypothesis Hfile : selectedFile (app w) = Some file.
Hypothesis Hai : ai w = Some client.

Lemma transcribe_text_run uploadedFile resultText :
  falsy resultText = false ->
  finished (handleTranscribe (Resolved (Some uploadedFile))
              (Resolved {| text := Some resultText |}) w)
  = w |> setStatus Status.uploading |> setError None |> setTranscription []
      |> setCopied false |> resetPromptState |> issue (FilesUpload file)
      |> setStatus Status.transcribing
      |> issue (GenerateContent model_name
                  [textPart transcribe_instruction;
                   fileData (mimeType uploadedFile) (uri uploadedFile)])
      |> setTranscription resultText
      |> setStatus Status.idle.
Proof.
  intros Ht. unfold handleTranscribe. rewrite Hfile, Hai. cbn [text].
  rewrite Ht. reflexivity.
Qed.

Lemma transcribe_requests uploadedFile gen :
  requests (finished (handleTranscribe (Resolved (Some uploadedFile)) gen w))
  = requests w
    ++ [FilesUpload file;
        GenerateContent model_name
          [textPart transcribe_instruction;
           fileData (mimeType uploadedFile) (uri uploadedFile)]].
Proof.
  unfold handleTranscribe. rewrite Hfile, Hai.
  destruct gen as [response | err]; [destruct response as [[t|]]|];
    cbn [text]; try destruct (falsy t); cbn; rewrite <- app_assoc;
    reflexivity.
Qed.

End Transcribe.

(** C1.  When the upload returns a file object and the generation request
    returns a non-empty text, [handleTranscribe] leaves the status at [idle]
    and the transcription equal to exactly that text. *)
Theorem transcribe_success w file client uploadedFile resultText :
  selectedFile (app w) = Some file ->
  ai w = Some client ->
  falsy resultText = false ->
  let run := handleTranscribe (Resolved (Some uploadedFile))
               (Resolved {| text := Some resultText |}) w in
  status (app (finished run)) = Status.idle
  /\ transcription (app (finished run)) = resultText.
Proof.
  intros Hfile Hai Ht run. subst run.
  rewrite (transcribe_text_run w file client Hfile Hai _ _ Ht).
  split; reflexivity.
Qed.

Lemma transcribe_success_witness :
  status (app transcribed) = Status.idle
  /\ transcription (app transcribed) = js "Hello world.".
Proof.
  apply (transcribe_success selected lecture {| key := js "secret" |}
           lecture_uploaded (js "Hello world.")); reflexivity.
Defined.

(** C4.  When the upload returns a file object but the generation response
    carries no text (undefined or empty), the error message is set and the
    status is nevertheless left at [idle], not [error]. *)
Theorem transcribe_empty_response w file client uploadedFile response :
  selectedFile (app w) = Some file ->
  ai w = Some client ->
  no_text response = true ->
  let run := handleTranscribe (Resolved (Some uploadedFile))
               (Resolved response) w in
  error (app (finished run))
  = Some (js "Could not get a transcription. The response was empty.")
  /\ status (app (finished run)) = Status.idle
  /\ status (app (finished run)) <> Status.error.
Proof.
  intros Hfile Hai Hno run. subst run.
  unfold handleTranscribe. rewrite Hfile, Hai.
  unfold no_text in Hno. destruct (text response) as [t|].
  - rewrite Hno. cbn. repeat split. discriminate.
  - cbn. repeat split. discriminate.
Qed.

Lemma transcribe_empty_response_witness :
  let run := handleTranscribe (Resolved (Some lecture_uploaded))
               (Resolved {| text := None |}) selected in
  error (app (finished run))
  = Some (js "Could not get a transcription. The response was empty.")
  /\ status (app (finished run)) = Status.idle
  /\ status (app (finished run)) <> Status.error.
Proof.
  apply (transcribe_empty_response selected lecture {| key := js "secret" |}
           lecture_uploaded {| text := None |}); reflexivity.
Defined.

(** C5 (as amended).  Every run of [handleTranscribe] that reaches its second
    phase issues, after the upload, exactly one generation request; its parts
    are the fixed instruction of the source, [transcribe_instruction], and
    the reference to the uploaded file. *)
Theorem transcribe_request_content w file client uploadedFile gen :
  selectedFile (app w) = Some file ->
  ai w = Some client ->
  let run := handleTranscribe (Resolved (Some uploadedFile)) gen w in
  requests (finished run)
  = requests w
    ++ [FilesUpload file;
        GenerateContent model_name
          [textPart transcribe_instruction;
           fileData (mimeType uploadedFile) (uri uploadedFile)]]
  /\ transcribe_instruction
     = js "Transcribe this long audio recording in its entirety. Provide a high-quality, accurate transcript of all speech.".
Proof.
  intros Hfile Hai run. subst run. split.
  - exact (transcribe_requests w file client Hfile Hai uploadedFile gen).
  - reflexivity.
Qed.

Lemma transcribe_request_content_witness :
  generation_requests transcribed
  = [(model_name,
      [textPart transcribe_instruction;
       fileData (Some (js "audio/mpeg")) (Some (js "files/lecture"))])].
Proof.
  unfold generation_requests, transcribed.
  rewrite (proj1 (transcribe_request_content selected lecture
                    {| key := js "secret" |} lecture_uploaded
                    (Resolved {| text := Some (js "Hello world.") |})
                    eq_refl eq_refl)).
  reflexivity.
Defined.

(** C5 (as stated) fails: in the run that transcribes [lecture], the one
    generation request carries an instruction that is not the text quoted by
    the specification. *)
Lemma transcribe_instruction_not_as_specified :
  generation_requests transcribed
  = [(model_name,
      [textPart transcribe_instruction; fileData (Some (js "audio/mpeg"))
                                                 (Some (js "files/lecture"))])]
  /\ transcribe_instruction <> spec_instruction
  /\ ~ In (textPart spec_instruction)
         (flat_map snd (generation_requests transcribed)).
Proof.
  split; [reflexivity|]. split.
  - vm_compute. discriminate.
  - vm_compute. intros [H|[H|[]]]; discriminate.
Qed.

(** C8.  When the upload phase fails (the call throws, or it returns no file
    object), [handleTranscribe] leaves the status at [error] with a message
    that embeds the cause's description; the upload is the only remote call
    issued, so there is no generation request, and the transcription is
    empty. *)
Theorem transcribe_upload_failure w file client up gen cause :
  selectedFile (app w) = Some file ->
  ai w = Some client ->
  upload_failure up = Some cause ->
  let run := handleTranscribe up gen w in
  status (app (finished run)) = Status.error
  /\ error (app (finished run))
     = Some (js "An error occurred: " ++ message cause
             ++ js ". If you are uploading a large file, please ensure you have a stable internet connection.")
  /\ requests (finished run) = requests w ++ [FilesUpload file]
  /\ generation_requests (finished run) = generation_requests w
  /\ transcription (app (finished run)) = []
  /\ Forall (fun x => transcription (app x) = []
                      /\ requests x = requests w ++ [FilesUpload file])
       (suspended run).
Proof.
  intros Hfile Hai Hup run. subst run.
  unfold handleTranscribe. rewrite Hfile, Hai.
  assert (Hgen : forall l, flat_map
            (fun r => match r with
                      | GenerateContent m ps => [(m, ps)]
                      | _ => []
                      end) (l ++ [FilesUpload file])
          = flat_map
            (fun r => match r with
                      | GenerateContent m ps => [(m, ps)]
                      | _ => []
                      end) l).
  { intros l. rewrite flat_map_app. cbn. apply app_nil_r. }
  destruct up as [[uploadedFile|]|err]; cbn in Hup; inversion Hup; subst;
    unfold generation_requests; cbn; rewrite Hgen;
    repeat split; repeat constructor.
Qed.

Lemma transcribe_upload_failure_witness :
  let run := handleTranscribe (Resolved None)
               (Resolved {| text := Some (js "Hello world.") |}) selected in
  status (app (finished run)) = Status.error
  /\ error (app (finished run))
     = Some (js "An error occurred: " ++ message no_file_object
             ++ js ". If you are uploading a large file, please ensure you have a stable internet connection.")
  /\ requests (finished run) = requests selected ++ [FilesUpload lecture]
  /\ generation_requests (finished run) = generation_requests selected
  /\ transcription (app (finished run)) = []
  /\ Forall (fun x => transcription (app x) = []
                      /\ requests x = requests selected ++ [FilesUpload lecture])
       (suspended run).
Proof.
  apply (transcribe_upload_failure selected lecture {| key := js "secret" |}
           (Resolved None) (Resolved {| text := Some (js "Hello world.") |})
           no_file_object); reflexivity.
Defined.

(** ** File selection *)

(** C3.  Whatever the prior world, selecting a file -- through the chooser
    ([handleFileChange]) or by drag-and-drop ([handleFileDrop]) -- clears the
    transcription and the transcription error, sets the status to [idle], and
    puts the prompt, the prompt response, the prompt status, the prompt error
    and the lesson copied-flag back to their initial values. *)
Theorem select_file_resets (w : World) (file : File) :
  selection_reset file (app (handleFileChange (Some file) w))
  /\ selection_reset file (app (handleFileDrop (Some file) w)).
Proof. split; cbn; repeat split. Qed.

(** ** Timers and the copied-flags *)

Lemma existsb_enqueue (p : Timer -> bool) (x : Timer) (q : list Timer) :
  existsb p (enqueue x q) = p x || existsb p q.
Proof.
  induction q as [|u q IH]; cbn.
  - reflexivity.
  - destruct (due u <=? due x); cbn.
    + rewrite IH. destruct (p u), (p x); reflexivity.
    + reflexivity.
Qed.

Lemma flag_fire (cb cb' : Callback) (w : World) :
  flag cb (app (fire cb' w)) = flag cb (app w) && negb (Callback_eqb cb' cb).
Proof.
  destruct cb, cb'; cbn; destruct (copied (app w)), (promptCopied (app w));
    reflexivity.
Qed.

Lemma flag_fired (cb : Callback) (t : N) (q : list Timer) :
  forall w,
    flag cb (app (fold_left (fun x u => fire (callback u) x)
                    (filter (fun u => due u <=? t) q) w))
    = flag cb (app w)
      && negb (existsb (fun u => Callback_eqb (callback u) cb && (due u <=? t))
                 q).
Proof.
  induction q as [|u q IH]; intros w; cbn [filter existsb fold_left].
  - rewrite andb_true_r. reflexivity.
  - destruct (due u <=? t); cbn [fold_left].
    + rewrite IH, flag_fire.
      destruct (flag cb (app w)), (Callback_eqb (callback u) cb); reflexivity.
    + rewrite IH, andb_false_r. reflexivity.
Qed.

(** After [dt] quiet milliseconds a flag is up iff it was up and none of its
    pending resets has come due. *)
Lemma flag_elapse (cb : Callback) (dt : N) (w : World) :
  flag cb (app (elapse dt w))
  = flag cb (app w) && negb (pending cb (now w + dt) w).
Proof. unfold elapse, pending. cbn [app]. apply flag_fired. Qed.

Lemma pending_setTimeout (cb cb' : Callback) (t delay : N) (w : World) :
  pending cb t (setTimeout cb' delay w)
  = (Callback_eqb cb' cb && (now w + delay <=? t)) || pending cb t w.
Proof. unfold pending, setTimeout. cbn. apply existsb_enqueue. Qed.

Lemma window_open (t dt : N) : negb (t + 2500 <=? t + dt) = (dt <? 2500).
Proof.
  destruct (N.leb_spec (t + 2500) (t + dt)), (N.ltb_spec dt 2500);
    cbn; try reflexivity; lia.
Qed.

Lemma handleCopy_elapse (w : World) (dt : N) :
  falsy (transcription (app w)) = false ->
  copied (app (elapse dt (handleCopy w)))
  = (dt <? 2500) && negb (pending ResetCopied (now w + dt) w).
Proof.
  intros Ht. unfold handleCopy. rewrite Ht.
  rewrite (flag_elapse ResetCopied), pending_setTimeout.
  cbn [flag Callback_eqb andb]. rewrite negb_orb, window_open. reflexivity.
Qed.

Lemma handlePromptCopy_elapse (w : World) (dt : N) :
  falsy (promptResponse (app w)) = false ->
  promptCopied (app (elapse dt (handlePromptCopy w)))
  = (dt <? 2500) && negb (pending ResetPromptCopied (now w + dt) w).
Proof.
  intros Ht. unfold handlePromptCopy. rewrite Ht.
  rewrite (flag_elapse ResetPromptCopied), pending_setTimeout.
  cbn [flag Callback_eqb andb]. rewrite negb_orb, window_open. reflexivity.
Qed.

Lemma copied_elapse (dt : N) (w : World) :
  copied (app (elapse dt w))
  = copied (app w) && negb (pending ResetCopied (now w + dt) w).
Proof. exact (flag_elapse ResetCopied dt w). Qed.

(** Selecting a file touches neither the clock nor the timers. *)
Lemma now_select files0 (w : World) :
  now (handleFileChange files0 w) = now w.
Proof. destruct files0; reflexivity. Qed.

Lemma pending_select cb t files0 (w : World) :
  pending cb t (handleFileChange files0 w) = pending cb t w.
Proof. destruct files0; reflexivity. Qed.

(** The reset scheduled by a copy is due 2500 ms later. *)
Lemma handleCopy_pending (w : World) :
  falsy (transcription (app w)) = false ->
  now (handleCopy w) = now w
  /\ pending ResetCopied (now w + 2500) (handleCopy w) = true.
Proof.
  intros Ht. unfold handleCopy. rewrite Ht. split; [reflexivity|].
  rewrite pending_setTimeout. cbn [Callback_eqb andb].
  change (now (setCopied true (writeText (transcription (app w)) w)))
    with (now w).
  rewrite N.leb_refl. reflexivity.
Qed.

(** C6 (as amended).  For either copy action: on empty text it changes
    nothing; on non-empty text it writes the text to the clipboard, raises the
    copied-flag and schedules its reset 2500 ms later, in front of no reset
    scheduled earlier and cancelling none.  With no further user event the
    flag is then up after [dt] ms iff [dt < 2500] and no reset of that flag
    which was already pending has come due: it drops exactly at 2500 ms when
    no earlier reset is pending, and no later than that in any case. *)
Theorem copy_feedback (w : World) :
  (falsy (transcription (app w)) = true -> handleCopy w = w)
  /\ (falsy (promptResponse (app w)) = true -> handlePromptCopy w = w)
  /\ (falsy (transcription (app w)) = false ->
      clipboard (handleCopy w) = clipboard w ++ [transcription (app w)]
      /\ copied (app (handleCopy w)) = true
      /\ timers (handleCopy w)
         = enqueue {| due := now w + 2500; callback := ResetCopied |}
             (timers w)
      /\ (forall dt,
            copied (app (elapse dt (handleCopy w)))
            = (dt <? 2500) && negb (pending ResetCopied (now w + dt) w))
      /\ (forall dt, 2500 <= dt ->
            copied (app (elapse dt (handleCopy w))) = false))
  /\ (falsy (promptResponse (app w)) = false ->
      clipboard (handlePromptCopy w) = clipboard w ++ [promptResponse (app w)]
      /\ promptCopied (app (handlePromptCopy w)) = true
      /\ timers (handlePromptCopy w)
         = enqueue {| due := now w + 2500; callback := ResetPromptCopied |}
             (timers w)
      /\ (forall dt,
            promptCopied (app (elapse dt (handlePromptCopy w)))
            = (dt <? 2500) && negb (pending ResetPromptCopied (now w + dt) w))
      /\ (forall dt, 2500 <= dt ->
            promptCopied (app (elapse dt (handlePromptCopy w))) = false)).
Proof.
  split; [|split; [|split]].
  - intros H. unfold handleCopy. rewrite H. reflexivity.
  - intros H. unfold handlePromptCopy. rewrite H. reflexivity.
  - intros H. repeat split.
    + unfold handleCopy. rewrite H. reflexivity.
    + unfold handleCopy. rewrite H. reflexivity.
    + unfold handleCopy. rewrite H. reflexivity.
    + intros dt. apply handleCopy_elapse, H.
    + intros dt Hdt. rewrite (handleCopy_elapse w dt H).
      destruct (N.ltb_spec dt 2500); [lia | reflexivity].
  - intros H. repeat split.
    + unfold handlePromptCopy. rewrite H. reflexivity.
    + unfold handlePromptCopy. rewrite H. reflexivity.
    + unfold handlePromptCopy. rewrite H. reflexivity.
    + intros dt. apply handlePromptCopy_elapse, H.
    + intros dt Hdt. rewrite (handlePromptCopy_elapse w dt H).
      destruct (N.ltb_spec dt 2500); [lia | reflexivity].
Qed.

(** With nothing pending, the transcript's flag is up for exactly the
    2500 ms after a copy. *)
Lemma copy_feedback_witness :
  copied (app (handleCopy transcribed)) = true
  /\ copied (app (elapse 2499 (handleCopy transcribed))) = true
  /\ copied (app (elapse 2500 (handleCopy transcribed))) = false.
Proof.
  destruct (copy_feedback transcribed) as (_ & _ & H & _).
  destruct (H eq_refl) as (_ & Hup & _ & Hdt & _).
  split; [exact Hup|].
  split; rewrite Hdt; reflexivity.
Defined.

(** C6 (as stated) fails: a second copy made 2000 ms after a first one shows
    its flag for 500 ms only, because the reset scheduled by the first copy
    is still pending and fires on time. *)
Lemma copy_flag_reset_by_earlier_timer :
  falsy (transcription (app copied_earlier)) = false
  /\ copied (app (handleCopy copied_earlier)) = true
  /\ copied (app (elapse 499 (handleCopy copied_earlier))) = true
  /\ copied (app (elapse 500 (handleCopy copied_earlier))) = false
  /\ (500 <? 2500) = true.
Proof. repeat split. Qed.

(** C10.  Selecting a file, by either handler, leaves the transcript's
    copied-flag (and the pending timers) as they were, whereas [removeFile]
    and every run of [handleTranscribe] that passes its checks put the flag
    down; so a flag raised by a copy is still up after a new file has been
    selected, until the pending reset fires. *)
Theorem select_file_keeps_copied (w : World) :
  (forall files0,
      copied (app (handleFileChange files0 w)) = copied (app w)
      /\ timers (handleFileChange files0 w) = timers w
      /\ copied (app (handleFileDrop files0 w)) = copied (app w)
      /\ timers (handleFileDrop files0 w) = timers w)
  /\ copied (app (removeFile w)) = false
  /\ (forall file client up gen,
        selectedFile (app w) = Some file -> ai w = Some client ->
        copied (app (finished (handleTranscribe up gen w))) = false
        /\ Forall (fun x => copied (app x) = false)
             (suspended (handleTranscribe up gen w)))
  /\ (forall file,
        falsy (transcription (app w)) = false ->
        copied (app (handleFileChange (Some file) (handleCopy w))) = true
        /\ copied (app (handleFileDrop (Some file) (handleCopy w))) = true
        /\ copied (app (elapse 2500
                          (handleFileChange (Some file) (handleCopy w))))
           = false).
Proof.
  split; [|split; [|split]].
  - intros [file|]; cbn; repeat split.
  - unfold removeFile. cbn. destruct (fileInput w); reflexivity.
  - intros file client up gen Hfile Hai.
    unfold handleTranscribe. rewrite Hfile, Hai.
    destruct up as [[uploadedFile|]|err];
      [destruct gen as [[[t|]]|err]; cbn [text]; try destruct (falsy t)| |];
      cbn; split; repeat constructor.
  - intros file Ht.
    assert (Hup : copied (app (handleCopy w)) = true).
    { unfold handleCopy. rewrite Ht. reflexivity. }
    repeat split; try exact Hup.
    rewrite copied_elapse, pending_select, now_select.
    destruct (handleCopy_pending w Ht) as [Hnow Hpending].
    rewrite Hnow, Hpending. apply andb_false_r.
Qed.

Lemma select_file_keeps_copied_witness :
  copied (app (handleFileChange (Some lecture) (handleCopy transcribed)))
  = true
  /\ copied (app (elapse 2500
                    (handleFileChange (Some lecture) (handleCopy transcribed))))
     = false.
Proof.
  destruct (select_file_keeps_copied transcribed) as (_ & _ & _ & H).
  destruct (H lecture eq_refl) as (H1 & _ & H2).
  split; [exact H1 | exact H2].
Defined.

(** ** Lesson generation *)

Lemma trimStart_nil (s : jsstring) :
  trimStart s = [] <-> forallb isWhiteSpace s = true.
Proof.
  induction s as [|c s IH]; cbn.
  - split; reflexivity.
  - destruct (isWhiteSpace c); cbn; [exact IH|].
    split; discriminate.
Qed.

Lemma trimStart_head (s : jsstring) c r :
  trimStart s = c :: r -> isWhiteSpace c = false.
Proof.
  induction s as [|d s IH]; cbn; [discriminate|].
  destruct (isWhiteSpace d) eqn:E; [exact IH|].
  intros H. inversion H; subst. exact E.
Qed.

(** [trim] leaves nothing exactly of the strings made of white space only. *)
Lemma trim_nil (s : jsstring) :
  trim s = [] <-> forallb isWhiteSpace s = true.
Proof.
  unfold trim, trimEnd. split.
  - intros H. apply (f_equal (@rev N)) in H. rewrite rev_involutive in H.
    cbn in H. apply trimStart_nil in H. rewrite forallb_forall in H.
    destruct (trimStart s) as [|c r] eqn:E.
    + apply trimStart_nil, E.
    + apply trimStart_head in E.
      rewrite (H c) in E; [discriminate|].
      apply in_rev. rewrite rev_involutive. left. reflexivity.
  - intros H. apply trimStart_nil in H. rewrite H. reflexivity.
Qed.

(** C7.  When the prompt trims to the empty string (it is empty or white
    space only) or there is no transcription, [handlePromptSubmit] returns at
    once: it is never suspended, issues no remote call, sets the validation
    message and leaves the prompt status as it was. *)
Theorem submit_rejects_blank (w : World) (opened : Settled ResponseStream) :
  trim (prompt (app w)) = [] \/ transcription (app w) = [] ->
  let run := handlePromptSubmit opened w in
  suspended run = []
  /\ requests (finished run) = requests w
  /\ promptError (app (finished run))
     = Some (js "Lütfen bir talimat veya başlık girin.")
  /\ promptStatus (app (finished run)) = promptStatus (app w)
  /\ promptResponse (app (finished run)) = promptResponse (app w).
Proof.
  intros H run. subst run. unfold handlePromptSubmit.
  assert (E : falsy (trim (prompt (app w))) || falsy (transcription (app w))
              = true).
  { destruct H as [-> | ->]; cbn; [reflexivity | apply orb_true_r]. }
  rewrite E. cbn. repeat split.
Qed.

Lemma submit_rejects_blank_witness :
  let w := setPrompt [32; 160; 10] transcribed in
  let run := handlePromptSubmit
               (Resolved {| chunks := map text_chunk summary_chunks;
                            failure := None |}) w in
  suspended run = []
  /\ requests (finished run) = requests w
  /\ promptError (app (finished run))
     = Some (js "Lütfen bir talimat veya başlık girin.")
  /\ promptStatus (app (finished run)) = promptStatus (app w)
  /\ promptResponse (app (finished run)) = promptResponse (app w).
Proof.
  intros w. apply (submit_rejects_blank w). left. reflexivity.
Defined.

Lemma for_await_length cs :
  forall w, length (for_await cs w) = length cs.
Proof. induction cs as [|c cs IH]; intros w; cbn; [|rewrite IH]; reflexivity. Qed.

(** The world in which [n] chunks have been consumed holds their texts, in
    the order of delivery, behind what was there before. *)
Lemma for_await_nth cs :
  forall w n wn,
    nth_error (w :: for_await cs w) n = Some wn ->
    promptResponse (app wn)
    = promptResponse (app w) ++ concat (map chunk_text (firstn n cs)).
Proof.
  induction cs as [|c cs IH]; intros w n wn H.
  - destruct n as [|n]; cbn in H.
    + inversion H; subst. cbn. symmetry. apply app_nil_r.
    + destruct n; discriminate.
  - destruct n as [|n].
    + inversion H; subst. cbn. symmetry. apply app_nil_r.
    + cbn [for_await nth_error] in H. apply IH in H. rewrite H.
      cbn. rewrite app_assoc. reflexivity.
Qed.

Lemma last_cons {A} (l : list A) :
  forall a d, last (a :: l) d = last l a.
Proof.
  induction l as [|b l IH]; intros a d; [reflexivity|].
  change (last (b :: l) d = last (b :: l) a). rewrite !IH. reflexivity.
Qed.

Lemma for_await_last cs :
  forall w,
    promptResponse (app (last (for_await cs w) w))
    = promptResponse (app w) ++ concat (map chunk_text cs)
    /\ requests (last (for_await cs w) w) = requests w.
Proof.
  induction cs as [|c cs IH]; intros w.
  - cbn. split; [symmetry; apply app_nil_r | reflexivity].
  - cbn [for_await]. rewrite last_cons.
    destruct (IH (updatePromptResponse (fun prev => prev ++ chunk_text c) w))
      as [H1 H2].
    rewrite H1, H2. cbn. rewrite app_assoc. split; reflexivity.
Qed.

Lemma chunk_text_text_chunk ts : map chunk_text (map text_chunk ts) = ts.
Proof. induction ts as [|t ts IH]; cbn; [|rewrite IH]; reflexivity. Qed.

Section Submit.

Variables (w : World) (client : GoogleGenAI) (rs : ResponseStream).
Hypothesis Hprompt : falsy (trim (prompt (app w))) = false.
Hypothesis Htranscription : falsy (transcription (app w)) = false.
Hypothesis Hai : ai w = Some client.

(** The world in which the streaming request has just been issued. *)
Let started : World :=
  w |> setPromptStatus PromptStatus.loading |> setPromptError None
    |> setPromptResponse [] |> setPromptCopied false
    |> issue (GenerateContentStream model_name
                (userPromptContents (transcription (app w)) (prompt (app w)))
                LESSON_GENERATION_SYSTEM_PROMPT).

Lemma submit_run :
  handlePromptSubmit (Resolved rs) w
  = {| suspended := started :: for_await (chunks rs) started;
       finished :=
         match failure rs with
         | None =>
             setPromptStatus PromptStatus.idle
               (last (for_await (chunks rs) started) started)
         | Some err =>
             prompt_catch err (last (for_await (chunks rs) started) started)
         end |}.
Proof.
  unfold handlePromptSubmit. rewrite Hprompt, Htranscription, Hai.
  reflexivity.
Qed.

Lemma submit_suspended (n : nat) :
  (n <= length (chunks rs))%nat ->
  exists wn,
    nth_error (suspended (handlePromptSubmit (Resolved rs) w)) n = Some wn
    /\ promptResponse (app wn)
       = concat (map chunk_text (firstn n (chunks rs))).
Proof.
  intros Hn. rewrite submit_run. cbn [suspended].
  destruct (nth_error (started :: for_await (chunks rs) started) n)
    as [wn|] eqn:E.
  - exists wn. split; [reflexivity|].
    apply for_await_nth in E. exact E.
  - apply nth_error_None in E. cbn in E. rewrite for_await_length in E. lia.
Qed.

Lemma submit_finished_response :
  promptResponse (app (finished (handlePromptSubmit (Resolved rs) w)))
  = concat (map chunk_text (chunks rs))
  /\ promptResponse (app (finished (handlePromptSubmit (Resolved rs) w)))
     = promptResponse
         (app (last (suspended (handlePromptSubmit (Resolved rs) w)) w)).
Proof.
  rewrite submit_run. cbn [suspended finished]. rewrite last_cons.
  destruct (for_await_last (chunks rs) started) as [H _].
  destruct (failure rs); cbn; cbn in H; rewrite H; split; reflexivity.
Qed.

End Submit.

(** X20.  In a streaming run of [handlePromptSubmit], for every finite chunk
    sequence and every [n] up to its length, the world in which the first [n]
    chunks have been consumed has as prompt response the concatenation, in
    delivery order, of what [prev + chunk.text] appended for each of them:
    the chunk's text, or the word [undefined] for a chunk without text.  For
    a stream whose chunks all carry a text this is the concatenation of their
    texts.  When the stream ends normally the final response is what all the
    chunks appended and the prompt status ends at [idle], so a stream
    without chunks ends with the empty response. *)
Theorem submit_appends_in_order w client rs (n : nat) :
  falsy (trim (prompt (app w))) = false ->
  falsy (transcription (app w)) = false ->
  ai w = Some client ->
  (n <= length (chunks rs))%nat ->
  let run := handlePromptSubmit (Resolved rs) w in
  (exists wn,
      nth_error (suspended run) n = Some wn
      /\ promptResponse (app wn)
         = concat (map chunk_text (firstn n (chunks rs)))
      /\ forall ts, chunks rs = map text_chunk ts ->
                    promptResponse (app wn) = concat (firstn n ts))
  /\ (failure rs = None ->
      promptResponse (app (finished run))
      = concat (map chunk_text (chunks rs))
      /\ promptStatus (app (finished run)) = PromptStatus.idle)
  /\ (chunks rs = [] -> failure rs = None ->
      promptResponse (app (finished run)) = []
      /\ promptStatus (app (finished run)) = PromptStatus.idle).
Proof.
  intros Hp Ht Hai Hn run. subst run.
  assert (Hend : failure rs = None ->
            promptResponse (app (finished (handlePromptSubmit (Resolved rs) w)))
            = concat (map chunk_text (chunks rs))
            /\ promptStatus
                 (app (finished (handlePromptSubmit (Resolved rs) w)))
               = PromptStatus.idle).
  { intros Hf. split.
    - apply (submit_finished_response w client rs Hp Ht Hai).
    - rewrite (submit_run w client rs Hp Ht Hai), Hf. reflexivity. }
  split; [|split].
  - destruct (submit_suspended w client rs Hp Ht Hai n Hn) as (wn & E & R).
    exists wn. split; [exact E|]. split; [exact R|].
    intros ts Hts. rewrite R, Hts, firstn_map, chunk_text_text_chunk.
    reflexivity.
  - exact Hend.
  - intros Hc Hf. destruct (Hend Hf) as [H1 H2]. rewrite Hc in H1.
    split; [exact H1 | exact H2].
Qed.

Lemma submit_appends_in_order_witness :
  let run := handlePromptSubmit
               (Resolved {| chunks := map text_chunk summary_chunks;
                            failure := None |}) prompted in
  (exists wn,
      nth_error (suspended run) 2 = Some wn
      /\ promptResponse (app wn)
         = js "### Summary
- point one
")
  /\ promptResponse (app (finished run))
     = js "### Summary
- point one
- point two
"
  /\ promptStatus (app (finished run)) = PromptStatus.idle.
Proof.
  pose proof (submit_appends_in_order prompted {| key := js "secret" |}
                {| chunks := map text_chunk summary_chunks; failure := None |}
                2) as H.
  vm_compute in H |- *.
  destruct H as ((wn & E & R & _) & F & _);
    try reflexivity; [repeat constructor|].
  split.
  - exists wn. split; [exact E | exact R].
  - exact (F eq_refl).
Defined.

(** C2.  The claim fails on a stream that yields a chunk without text, which
    the loop appends unguarded (the transcription handler does test
    [response.text]): for the chunks [a], a chunk whose [text] is undefined,
    and [b], the response after two chunks is [aundefined] and the final
    one [aundefinedb], not the concatenation [ab] of the chunks' texts; the
    prompt status still ends at [idle]. *)
Theorem submit_appends_undefined_word :
  let rs := {| chunks := [text_chunk (js "a"); {| text := None |};
                          text_chunk (js "b")];
               failure := None |} in
  let run := handlePromptSubmit (Resolved rs) prompted in
  (exists w2,
      nth_error (suspended run) 2 = Some w2
      /\ promptResponse (app w2) = js "aundefined"
      /\ promptResponse (app w2) <> js "a")
  /\ promptResponse (app (finished run)) = js "aundefinedb"
  /\ promptResponse (app (finished run)) <> js "ab"
  /\ promptStatus (app (finished run)) = PromptStatus.idle.
Proof.
  intros rs run. subst run.
  assert (Hp : falsy (trim (prompt (app prompted))) = false) by reflexivity.
  assert (Ht : falsy (transcription (app prompted)) = false) by reflexivity.
  assert (Hai : ai prompted = Some {| key := js "secret" |}) by reflexivity.
  destruct (submit_suspended prompted _ rs Hp Ht Hai 2) as (w2 & E & R);
    [cbn; lia|].
  destruct (submit_finished_response prompted _ rs Hp Ht Hai) as [F _].
  assert (Ha : js "aundefined" <> js "a") by (vm_compute; discriminate).
  assert (Hb : js "aundefinedb" <> js "ab") by (vm_compute; discriminate).
  split; [|split; [|split]].
  - exists w2. split; [exact E|]. rewrite R. split; [reflexivity | exact Ha].
  - rewrite F. reflexivity.
  - rewrite F. exact Hb.
  - rewrite (submit_run prompted _ rs Hp Ht Hai). reflexivity.
Qed.

(** C9.  When the response stream throws after it has been opened,
    [handlePromptSubmit] leaves the prompt status at [error] with the
    formatted message, and the prompt response is what had been appended
    before the exception -- the texts of all chunks delivered, as in the
    last world observed -- not the empty string it was reset to. *)
Theorem submit_failure_keeps_partial w client rs err :
  falsy (trim (prompt (app w))) = false ->
  falsy (transcription (app w)) = false ->
  ai w = Some client ->
  failure rs = Some err ->
  let run := handlePromptSubmit (Resolved rs) w in
  promptStatus (app (finished run)) = PromptStatus.error
  /\ promptError (app (finished run))
     = Some (js "Bir hata oluştu: " ++ message err)
  /\ promptResponse (app (finished run))
     = concat (map chunk_text (chunks rs))
  /\ promptResponse (app (finished run))
     = promptResponse (app (last (suspended run) w)).
Proof.
  intros Hp Ht Hai Hf run. subst run.
  destruct (submit_finished_response w client rs Hp Ht Hai) as [H1 H2].
  repeat split; try assumption;
    rewrite (submit_run w client rs Hp Ht Hai), Hf; reflexivity.
Qed.

Lemma submit_failure_keeps_partial_witness :
  let run := handlePromptSubmit
               (Resolved {| chunks := map text_chunk (firstn 2 summary_chunks);
                            failure := Some {| message := js "network" |} |})
               prompted in
  promptStatus (app (finished run)) = PromptStatus.error
  /\ promptError (app (finished run)) = Some (js "Bir hata oluştu: network")
  /\ promptResponse (app (finished run))
     = js "### Summary
- point one
".
Proof.
  pose proof (submit_failure_keeps_partial prompted {| key := js "secret" |}
                {| chunks := map text_chunk (firstn 2 summary_chunks);
                   failure := Some {| message := js "network" |} |}
                {| message := js "network" |}) as H.
  vm_compute in H |- *.
  destruct H as (H1 & H2 & H3 & _); try reflexivity.
  split; [exact H1|]. split; [exact H2 | exact H3].
Defined.

(** * Further properties of the handlers *)

Lemma app_not_self {A} (l r : list A) : r <> [] -> l ++ r <> l.
Proof.
  intros Hr H. apply (f_equal (@List.length A)) in H.
  rewrite length_app in H. destruct r; [congruence | cbn in H; lia].
Qed.

Lemma ai_None (w : World) :
  ai w = None <-> apiKey w = None \/ apiKey w = Some [].
Proof.
  unfold ai. destruct (apiKey w) as [[|c k]|]; cbn; split;
    try discriminate; auto.
  - intros [H|H]; discriminate.
Qed.

(** ** [handleTranscribe]: checks and failures *)

(** X1.  With no file selected, [handleTranscribe] returns at once: it is
    never suspended and issues no remote call; it sets the message asking for
    a file and leaves the status, the transcription and the prompt state as
    they were. *)
Theorem transcribe_without_file w up gen :
  selectedFile (app w) = None ->
  let run := handleTranscribe up gen w in
  suspended run = []
  /\ requests (finished run) = requests w
  /\ error (app (finished run))
     = Some (js "Please select an audio file first.")
  /\ status (app (finished run)) = status (app w)
  /\ transcription (app (finished run)) = transcription (app w)
  /\ copied (app (finished run)) = copied (app w)
  /\ promptResponse (app (finished run)) = promptResponse (app w).
Proof.
  intros Hfile run. subst run. unfold handleTranscribe. rewrite Hfile.
  cbn. repeat split.
Qed.

Lemma transcribe_without_file_witness :
  let w := removeFile transcribed in
  let run := handleTranscribe (Resolved (Some lecture_uploaded))
               (Resolved {| text := Some (js "Hello world.") |}) w in
  suspended run = []
  /\ requests (finished run) = requests w
  /\ error (app (finished run))
     = Some (js "Please select an audio file first.")
  /\ status (app (finished run)) = status (app w)
  /\ transcription (app (finished run)) = transcription (app w)
  /\ copied (app (finished run)) = copied (app w)
  /\ promptResponse (app (finished run)) = promptResponse (app w).
Proof.
  intros w. apply (transcribe_without_file w). reflexivity.
Defined.

(** X2.  With a file selected but no API key configured (the variable is
    unset or empty), [handleTranscribe] returns at once: it is never
    suspended, issues no remote call -- not even the upload -- sets the
    configuration message and leaves the status and the transcription as
    they were. *)
Theorem transcribe_without_key w file up gen :
  selectedFile (app w) = Some file ->
  apiKey w = None \/ apiKey w = Some [] ->
  let run := handleTranscribe up gen w in
  suspended run = []
  /\ requests (finished run) = requests w
  /\ error (app (finished run))
     = Some (js "API key is not configured. Please set the API_KEY environment variable.")
  /\ status (app (finished run)) = status (app w)
  /\ transcription (app (finished run)) = transcription (app w)
  /\ copied (app (finished run)) = copied (app w).
Proof.
  intros Hfile Hkey run. subst run. apply ai_None in Hkey.
  unfold handleTranscribe. rewrite Hfile, Hkey. cbn. repeat split.
Qed.

Lemma transcribe_without_key_witness :
  let run := handleTranscribe (Resolved (Some lecture_uploaded))
               (Resolved {| text := Some (js "Hello world.") |})
               unconfigured in
  suspended run = []
  /\ requests (finished run) = requests unconfigured
  /\ error (app (finished run))
     = Some (js "API key is not configured. Please set the API_KEY environment variable.")
  /\ status (app (finished run)) = status (app unconfigured)
  /\ transcription (app (finished run)) = transcription (app unconfigured)
  /\ copied (app (finished run)) = copied (app unconfigured).
Proof.
  apply (transcribe_without_key unconfigured lecture).
  - reflexivity.
  - left. reflexivity.
Defined.

(** X3.  When the upload returns a file object but the generation request
    throws, [handleTranscribe] leaves the status at [error] with a message
    that embeds the cause's description, the transcription empty, and exactly
    the two calls issued, the upload before the generation request; the
    failure is logged on the console. *)
Theorem transcribe_generation_failure w file client uploadedFile err :
  selectedFile (app w) = Some file ->
  ai w = Some client ->
  let run := handleTranscribe (Resolved (Some uploadedFile)) (Rejected err) w in
  status (app (finished run)) = Status.error
  /\ error (app (finished run))
     = Some (js "An error occurred: " ++ message err
             ++ js ". If you are uploading a large file, please ensure you have a stable internet connection.")
  /\ transcription (app (finished run)) = []
  /\ requests (finished run)
     = requests w
       ++ [FilesUpload file;
           GenerateContent model_name
             [textPart transcribe_instruction;
              fileData (mimeType uploadedFile) (uri uploadedFile)]]
  /\ console (finished run) = console w ++ [err].
Proof.
  intros Hfile Hai run. subst run. unfold handleTranscribe.
  rewrite Hfile, Hai. cbn. rewrite <- app_assoc. repeat split.
Qed.

Lemma transcribe_generation_failure_witness :
  let run := handleTranscribe (Resolved (Some lecture_uploaded))
               (Rejected {| message := js "quota" |}) selected in
  status (app (finished run)) = Status.error
  /\ error (app (finished run))
     = Some (js "An error occurred: " ++ message {| message := js "quota" |}
             ++ js ". If you are uploading a large file, please ensure you have a stable internet connection.")
  /\ transcription (app (finished run)) = []
  /\ requests (finished run)
     = requests selected
       ++ [FilesUpload lecture;
           GenerateContent model_name
             [textPart transcribe_instruction;
              fileData (mimeType lecture_uploaded) (uri lecture_uploaded)]]
  /\ console (finished run)
     = console selected ++ [{| message := js "quota" |}].
Proof.
  apply (transcribe_generation_failure selected lecture
           {| key := js "secret" |} lecture_uploaded
           {| message := js "quota" |}); reflexivity.
Defined.

(** X4.  [handleTranscribe] issues a remote call exactly when a file is
    selected and a non-empty API key is configured, whatever the status is:
    the handler has no check of its own against a run already in flight. *)
Theorem transcribe_calls_iff w up gen :
  requests (finished (handleTranscribe up gen w)) <> requests w
  <-> selectedFile (app w) <> None /\ ai w <> None.
Proof.
  unfold handleTranscribe.
  destruct (selectedFile (app w)) as [file|] eqn:Hfile.
  - destruct (ai w) as [client|] eqn:Hai.
    + split; [intros _; split; discriminate|]. intros _.
      destruct up as [[uploadedFile|]|err];
        [destruct gen as [[[t|]]|err]; cbn [text]; try destruct (falsy t)| |];
        cbn; rewrite <- ?app_assoc; apply app_not_self; discriminate.
    + cbn. split; [congruence | intros [_ H]; congruence].
  - cbn. split; [congruence | intros [H _]; congruence].
Qed.

(** ** [handleTranscribe]: what a run that passes the checks keeps *)

(** X5.  While a run of [handleTranscribe] that passed its checks is
    suspended, the status is [uploading] during the upload and
    [transcribing] during the generation request, so [isProcessing] holds,
    the transcribe button is disabled and carries its progress label; when
    the run is over the file is still selected, [isProcessing] no longer
    holds and the button is enabled again under its resting label. *)
Theorem transcribe_busy_while_suspended w file client up gen :
  selectedFile (app w) = Some file ->
  ai w = Some client ->
  let run := handleTranscribe up gen w in
  (map (fun x => status (app x)) (suspended run) = [Status.uploading]
   \/ map (fun x => status (app x)) (suspended run)
      = [Status.uploading; Status.transcribing])
  /\ Forall (fun x => isProcessing (app x) = true
                      /\ transcribeDisabled (app x) = true
                      /\ getButtonText (app x) <> js "Transcribe Audio")
       (suspended run)
  /\ selectedFile (app (finished run)) = Some file
  /\ isProcessing (app (finished run)) = false
  /\ transcribeDisabled (app (finished run)) = false
  /\ getButtonText (app (finished run)) = js "Transcribe Audio".
Proof.
  intros Hfile Hai run. subst run. unfold handleTranscribe.
  rewrite Hfile, Hai.
  assert (L1 : js "Uploading & Processing..." <> js "Transcribe Audio")
    by (vm_compute; discriminate).
  assert (L2 : js "Transcribing..." <> js "Transcribe Audio")
    by (vm_compute; discriminate).
  destruct up as [[uploadedFile|]|err];
    [destruct gen as [[[t|]]|err]; cbn [text]; try destruct (falsy t)| |];
    cbn [suspended finished map]; (split; [cbn; auto|]);
    repeat match goal with
           | |- _ /\ _ => split
           | |- Forall _ (_ :: _) => apply Forall_cons
           | |- Forall _ [] => apply Forall_nil
           end;
    unfold transcribeDisabled, isProcessing, getButtonText; cbn;
    rewrite ?Hfile; try reflexivity; assumption.
Qed.

Lemma transcribe_busy_while_suspended_witness :
  let run := handleTranscribe (Resolved (Some lecture_uploaded))
               (Resolved {| text := Some (js "Hello world.") |}) selected in
  (map (fun x => status (app x)) (suspended run) = [Status.uploading]
   \/ map (fun x => status (app x)) (suspended run)
      = [Status.uploading; Status.transcribing])
  /\ Forall (fun x => isProcessing (app x) = true
                      /\ transcribeDisabled (app x) = true
                      /\ getButtonText (app x) <> js "Transcribe Audio")
       (suspended run)
  /\ selectedFile (app (finished run)) = Some lecture
  /\ isProcessing (app (finished run)) = false
  /\ transcribeDisabled (app (finished run)) = false
  /\ getButtonText (app (finished run)) = js "Transcribe Audio".
Proof.
  apply (transcribe_busy_while_suspended selected lecture
           {| key := js "secret" |}); reflexivity.
Defined.

(** X6.  A run of [handleTranscribe] that passed its checks puts the
    follow-up prompt state back to its initial values before the upload and
    never writes it afterwards: it is initial in every world of the run,
    however the run ends. *)
Theorem transcribe_resets_lesson w file client up gen :
  selectedFile (app w) = Some file ->
  ai w = Some client ->
  let run := handleTranscribe up gen w in
  Forall (fun x => lesson_initial (app x)) (suspended run ++ [finished run]).
Proof.
  intros Hfile Hai run. subst run. unfold handleTranscribe.
  rewrite Hfile, Hai.
  destruct up as [[uploadedFile|]|err];
    [destruct gen as [[[t|]]|err]; cbn [text]; try destruct (falsy t)| |];
    cbn; repeat constructor.
Qed.

Lemma transcribe_resets_lesson_witness :
  let run := handleTranscribe (Resolved None)
               (Resolved {| text := None |}) prompted in
  Forall (fun x => lesson_initial (app x)) (suspended run ++ [finished run]).
Proof.
  apply (transcribe_resets_lesson prompted lecture {| key := js "secret" |});
    reflexivity.
Defined.

(** X7.  The component state that a run of [handleTranscribe] leaves depends
    only on the selected file and on what the remote service answered: two
    runs that pass the checks with the same file and the same answers leave
    the same state, whatever status, error, transcription, copied-flag or
    prompt state they started from.  In particular a run started from the
    [error] status behaves like one started from [idle]. *)
Theorem transcribe_forgets_prior_state w w' file client client' up gen :
  selectedFile (app w) = Some file ->
  selectedFile (app w') = Some file ->
  ai w = Some client ->
  ai w' = Some client' ->
  app (finished (handleTranscribe up gen w))
  = app (finished (handleTranscribe up gen w')).
Proof.
  intros Hfile Hfile' Hai Hai'. unfold handleTranscribe.
  rewrite Hfile, Hfile', Hai, Hai'.
  destruct up as [[uploadedFile|]|err];
    [destruct gen as [[[t|]]|err]; cbn [text]; try destruct (falsy t)| |];
    cbn; rewrite Hfile, Hfile'; reflexivity.
Qed.

Lemma transcribe_forgets_prior_state_witness :
  app (finished (handleTranscribe (Resolved (Some lecture_uploaded))
                   (Resolved {| text := Some (js "Hello world.") |})
                   (setStatus Status.error
                      (setError (Some (js "stale")) selected))))
  = app (finished (handleTranscribe (Resolved (Some lecture_uploaded))
                     (Resolved {| text := Some (js "Hello world.") |})
                     selected)).
Proof.
  apply (transcribe_forgets_prior_state
           (setStatus Status.error (setError (Some (js "stale")) selected))
           selected lecture {| key := js "secret" |} {| key := js "secret" |});
    reflexivity.
Defined.

(** ** [removeFile] and a change of file *)

(** X8.  [removeFile] deselects the file, empties the transcription, sets the
    status to [idle], lowers the transcript's copied-flag, resets the
    follow-up prompt state and empties the file input when it is mounted; it
    does not clear the transcription error, which stays as it was, and it
    touches neither the clipboard, the timers nor the remote service. *)
Theorem removeFile_effect (w : World) :
  selectedFile (app (removeFile w)) = None
  /\ transcription (app (removeFile w)) = []
  /\ status (app (removeFile w)) = Status.idle
  /\ copied (app (removeFile w)) = false
  /\ lesson_initial (app (removeFile w))
  /\ error (app (removeFile w)) = error (app w)
  /\ fileInput (removeFile w)
     = match fileInput w with Some _ => Some [] | None => None end
  /\ clipboard (removeFile w) = clipboard w
  /\ timers (removeFile w) = timers w
  /\ requests (removeFile w) = requests w.
Proof.
  unfold removeFile. cbn. destruct (fileInput w) eqn:E; cbn; rewrite ?E;
    repeat split.
Qed.

Lemma submit_rejects_blank_general (w : World)
    (opened : Settled ResponseStream) :
  trim (prompt (app w)) = [] \/ transcription (app w) = [] ->
  suspended (handlePromptSubmit opened w) = []
  /\ requests (finished (handlePromptSubmit opened w)) = requests w
  /\ promptError (app (finished (handlePromptSubmit opened w)))
     = Some (js "Lütfen bir talimat veya başlık girin.")
  /\ promptStatus (app (finished (handlePromptSubmit opened w)))
     = promptStatus (app w)
  /\ finished (handlePromptSubmit opened w)
     = setPromptError (Some (js "Lütfen bir talimat veya başlık girin.")) w.
Proof.
  intros H. unfold handlePromptSubmit.
  assert (E : falsy (trim (prompt (app w))) || falsy (transcription (app w))
              = true).
  { destruct H as [-> | ->]; cbn; [reflexivity | apply orb_true_r]. }
  rewrite E. cbn. repeat split.
Qed.

Lemma removeFile_blank (w : World) :
  transcription (app (removeFile w)) = []
  /\ requests (removeFile w) = requests w
  /\ promptStatus (app (removeFile w)) = PromptStatus.idle.
Proof. unfold removeFile. destruct (fileInput _); repeat split. Qed.

(** X9.  The follow-up session does not survive a change of file: right after
    a file has been selected (by either handler) or removed, whatever is in
    the prompt box, [handlePromptSubmit] is rejected by its check -- no
    remote call, never suspended, the validation message set -- because the
    transcription is empty. *)
Theorem submit_after_file_change (w : World) (file : File) (p : jsstring)
    (opened : Settled ResponseStream) :
  forall w',
    w' = handleFileChange (Some file) w \/ w' = handleFileDrop (Some file) w
    \/ w' = removeFile w ->
    let run := handlePromptSubmit opened (setPrompt p w') in
    suspended run = []
    /\ requests (finished run) = requests w
    /\ promptError (app (finished run))
       = Some (js "Lütfen bir talimat veya başlık girin.")
    /\ promptStatus (app (finished run)) = PromptStatus.idle.
Proof.
  intros w' Hw'.
  assert (H : transcription (app w') = [] /\ requests w' = requests w
              /\ promptStatus (app w') = PromptStatus.idle).
  { destruct Hw' as [Hw' | [Hw' | Hw']]; rewrite Hw'.
    - repeat split.
    - repeat split.
    - apply removeFile_blank. }
  destruct H as (Ht & Hr & Hs).
  destruct (submit_rejects_blank_general (setPrompt p w') opened
              (or_intror Ht))
    as (H1 & H2 & H3 & H4 & _).
  cbv zeta. rewrite H1, H2, H3, H4. repeat split; assumption.
Qed.

Lemma submit_after_file_change_witness :
  let run := handlePromptSubmit
               (Resolved {| chunks := map text_chunk summary_chunks;
                            failure := None |})
               (setPrompt (js "Summarize in 3 bullets")
                  (handleFileDrop (Some lecture) transcribed)) in
  suspended run = []
  /\ requests (finished run) = requests transcribed
  /\ promptError (app (finished run))
     = Some (js "Lütfen bir talimat veya başlık girin.")
  /\ promptStatus (app (finished run)) = PromptStatus.idle.
Proof.
  apply (submit_after_file_change transcribed lecture
           (js "Summarize in 3 bullets")
           (Resolved {| chunks := map text_chunk summary_chunks;
                        failure := None |})
           (handleFileDrop (Some lecture) transcribed)).
  right. left. reflexivity.
Defined.

(** ** [handlePromptSubmit]: checks, failures and frame *)

(** The streaming loop writes the prompt response and nothing else. *)
Lemma for_await_frame cs :
  forall w, Forall (same_but_response w) (for_await cs w).
Proof.
  induction cs as [|c cs IH]; intros w; cbn [for_await]; constructor.
  - repeat split.
  - eapply Forall_impl; [|apply IH]. intros x H. exact H.
Qed.

Lemma for_await_last_frame cs :
  forall w, same_but_response w (last (for_await cs w) w).
Proof.
  induction cs as [|c cs IH]; intros w; cbn [for_await].
  - repeat split.
  - rewrite last_cons.
    exact (IH (updatePromptResponse (fun prev => prev ++ chunk_text c) w)).
Qed.

(** X10.  With an instruction and a transcript present but no API key
    configured (the variable is unset or empty), [handlePromptSubmit]
    returns at once: it is never suspended, issues no remote call, sets the
    configuration message and leaves the prompt status and the prompt
    response as they were. *)
Theorem submit_without_key w opened :
  falsy (trim (prompt (app w))) = false ->
  falsy (transcription (app w)) = false ->
  apiKey w = None \/ apiKey w = Some [] ->
  let run := handlePromptSubmit opened w in
  suspended run = []
  /\ requests (finished run) = requests w
  /\ promptError (app (finished run))
     = Some (js "API anahtarı yapılandırılmamış.")
  /\ promptStatus (app (finished run)) = promptStatus (app w)
  /\ promptResponse (app (finished run)) = promptResponse (app w).
Proof.
  intros Hp Ht Hkey run. subst run. apply ai_None in Hkey.
  unfold handlePromptSubmit. rewrite Hp, Ht, Hkey. cbn. repeat split.
Qed.

Lemma submit_without_key_witness :
  let w := setPrompt (js "Summarize in 3 bullets")
             (setTranscription (js "Hello world.") unconfigured) in
  let run := handlePromptSubmit
               (Resolved {| chunks := map text_chunk summary_chunks;
                            failure := None |}) w in
  suspended run = []
  /\ requests (finished run) = requests w
  /\ promptError (app (finished run))
     = Some (js "API anahtarı yapılandırılmamış.")
  /\ promptStatus (app (finished run)) = promptStatus (app w)
  /\ promptResponse (app (finished run)) = promptResponse (app w).
Proof.
  intros w. apply (submit_without_key w).
  - reflexivity.
  - reflexivity.
  - left. reflexivity.
Defined.

Section SubmitChecked.

Variables (w : World) (client : GoogleGenAI).
Hypothesis Hprompt : falsy (trim (prompt (app w))) = false.
Hypothesis Htranscription : falsy (transcription (app w)) = false.
Hypothesis Hai : ai w = Some client.

(** The world in which the streaming request has just been issued. *)
Let issued : World :=
  w |> setPromptStatus PromptStatus.loading |> setPromptError None
    |> setPromptResponse [] |> setPromptCopied false
    |> issue (GenerateContentStream model_name
                (userPromptContents (transcription (app w)) (prompt (app w)))
                LESSON_GENERATION_SYSTEM_PROMPT).

Lemma submit_run_rejected err :
  handlePromptSubmit (Rejected err) w
  = {| suspended := [issued]; finished := prompt_catch err issued |}.
Proof.
  unfold handlePromptSubmit. rewrite Hprompt, Htranscription, Hai.
  reflexivity.
Qed.

Lemma submit_run_opened rs :
  handlePromptSubmit (Resolved rs) w
  = {| suspended := issued :: for_await (chunks rs) issued;
       finished :=
         match failure rs with
         | None =>
             setPromptStatus PromptStatus.idle
               (last (for_await (chunks rs) issued) issued)
         | Some err =>
             prompt_catch err (last (for_await (chunks rs) issued) issued)
         end |}.
Proof.
  unfold handlePromptSubmit. rewrite Hprompt, Htranscription, Hai.
  reflexivity.
Qed.

(** Every world of a run that passed the checks differs from [issued] in the
    prompt response at most, up to what the end of the run writes. *)
Lemma submit_suspended_frame opened :
  Forall (same_but_response issued)
    (suspended (handlePromptSubmit opened w)).
Proof.
  destruct opened as [rs|err].
  - rewrite submit_run_opened. cbn [suspended]. constructor.
    + repeat split.
    + apply for_await_frame.
  - rewrite submit_run_rejected. cbn [suspended]. constructor.
    + repeat split.
    + constructor.
Qed.

Lemma submit_finished_frame opened :
  transcription_side (finished (handlePromptSubmit opened w))
  = transcription_side w
  /\ requests (finished (handlePromptSubmit opened w)) = requests issued
  /\ promptStatus (app (finished (handlePromptSubmit opened w)))
     = match opened with
       | Resolved rs =>
           match failure rs with
           | None => PromptStatus.idle
           | Some _ => PromptStatus.error
           end
       | Rejected _ => PromptStatus.error
       end.
Proof.
  destruct opened as [rs|err].
  - rewrite submit_run_opened. cbn [finished].
    destruct (for_await_last_frame (chunks rs) issued)
      as (H1 & _ & _ & _ & H5 & _).
    destruct (failure rs); repeat split; try exact H1; exact H5.
  - rewrite submit_run_rejected. repeat split.
Qed.

End SubmitChecked.

(** X11.  When the call that opens the stream throws, [handlePromptSubmit]
    leaves the prompt status at [error] with the formatted message and the
    prompt response empty; it was suspended once, with the status
    [loading], and the failure is logged on the console. *)
Theorem submit_call_rejected w client err :
  falsy (trim (prompt (app w))) = false ->
  falsy (transcription (app w)) = false ->
  ai w = Some client ->
  let run := handlePromptSubmit (Rejected err) w in
  promptStatus (app (finished run)) = PromptStatus.error
  /\ promptError (app (finished run))
     = Some (js "Bir hata oluştu: " ++ message err)
  /\ promptResponse (app (finished run)) = []
  /\ map (fun x => promptStatus (app x)) (suspended run)
     = [PromptStatus.loading]
  /\ console (finished run) = console w ++ [err].
Proof.
  intros Hp Ht Hai run. subst run.
  rewrite (submit_run_rejected w client Hp Ht Hai). repeat split.
Qed.

Lemma submit_call_rejected_witness :
  let run := handlePromptSubmit (Rejected {| message := js "offline" |})
               prompted in
  promptStatus (app (finished run)) = PromptStatus.error
  /\ promptError (app (finished run))
     = Some (js "Bir hata oluştu: " ++ message {| message := js "offline" |})
  /\ promptResponse (app (finished run)) = []
  /\ map (fun x => promptStatus (app x)) (suspended run)
     = [PromptStatus.loading]
  /\ console (finished run)
     = console prompted ++ [{| message := js "offline" |}].
Proof.
  apply (submit_call_rejected prompted {| key := js "secret" |}
           {| message := js "offline" |}); vm_compute; reflexivity.
Defined.

(** X12.  A run of [handlePromptSubmit] that passes the checks issues exactly
    one remote call, however the stream behaves: the streaming request whose
    contents embed the transcription and then the prompt as typed (not
    trimmed), with the lesson-generation system prompt.  The call is already
    issued in every world in which the run is suspended and is never
    repeated. *)
Theorem submit_request_content w client opened :
  falsy (trim (prompt (app w))) = false ->
  falsy (transcription (app w)) = false ->
  ai w = Some client ->
  let run := handlePromptSubmit opened w in
  let issued :=
    requests w
    ++ [GenerateContentStream model_name
          (js "Lütfen aşağıdaki transkripte göre ders içeriğini oluşturun.

--- TRANSKRİPT ---
" ++ transcription (app w) ++ js "

--- KULLANICI TALİMATLARI / DERS BAŞLIĞI ---
" ++ prompt (app w) ++ js "
")
          LESSON_GENERATION_SYSTEM_PROMPT] in
  requests (finished run) = issued
  /\ Forall (fun x => requests x = issued) (suspended run).
Proof.
  intros Hp Ht Hai run issued. subst run issued. split.
  - destruct (submit_finished_frame w client Hp Ht Hai opened) as (_ & H & _).
    rewrite H. reflexivity.
  - eapply Forall_impl;
      [|apply (submit_suspended_frame w client Hp Ht Hai opened)].
    intros x (_ & _ & _ & _ & H & _). rewrite H. reflexivity.
Qed.

Lemma submit_request_content_witness :
  let w := prompted in
  let run := handlePromptSubmit
               (Resolved {| chunks := map text_chunk summary_chunks;
                            failure := None |}) w in
  let issued :=
    requests w
    ++ [GenerateContentStream model_name
          (js "Lütfen aşağıdaki transkripte göre ders içeriğini oluşturun.

--- TRANSKRİPT ---
" ++ transcription (app w) ++ js "

--- KULLANICI TALİMATLARI / DERS BAŞLIĞI ---
" ++ prompt (app w) ++ js "
")
          LESSON_GENERATION_SYSTEM_PROMPT] in
  requests (finished run) = issued
  /\ Forall (fun x => requests x = issued) (suspended run).
Proof.
  intros w. apply (submit_request_content w {| key := js "secret" |});
    vm_compute; reflexivity.
Defined.

(** X13.  While a run of [handlePromptSubmit] that passed the checks is
    suspended -- on the call and after each chunk -- the prompt status is
    [loading], so the submit button is disabled, and no prompt error is
    shown; when the run is over the status is [idle] or [error], never
    [loading]. *)
Theorem submit_loading_while_suspended w client opened :
  falsy (trim (prompt (app w))) = false ->
  falsy (transcription (app w)) = false ->
  ai w = Some client ->
  let run := handlePromptSubmit opened w in
  Forall (fun x => promptStatus (app x) = PromptStatus.loading
                   /\ submitDisabled (app x) = true
                   /\ promptError (app x) = None
                   /\ promptCopied (app x) = false)
    (suspended run)
  /\ suspended run <> []
  /\ promptStatus (app (finished run)) <> PromptStatus.loading.
Proof.
  intros Hp Ht Hai run. subst run. split; [|split].
  - eapply Forall_impl;
      [|apply (submit_suspended_frame w client Hp Ht Hai opened)].
    intros x (_ & H2 & H3 & H4 & _). unfold submitDisabled.
    rewrite H2, H3, H4. cbn. rewrite orb_true_r. repeat split.
  - destruct opened as [rs|err].
    + rewrite (submit_run_opened w client Hp Ht Hai). discriminate.
    + rewrite (submit_run_rejected w client Hp Ht Hai). discriminate.
  - destruct (submit_finished_frame w client Hp Ht Hai opened) as (_ & _ & H).
    rewrite H. destruct opened as [rs|err]; [destruct (failure rs)|];
      discriminate.
Qed.

Lemma submit_loading_while_suspended_witness :
  let run := handlePromptSubmit
               (Resolved {| chunks := map text_chunk summary_chunks;
                            failure := None |}) prompted in
  Forall (fun x => promptStatus (app x) = PromptStatus.loading
                   /\ submitDisabled (app x) = true
                   /\ promptError (app x) = None
                   /\ promptCopied (app x) = false)
    (suspended run)
  /\ suspended run <> []
  /\ promptStatus (app (finished run)) <> PromptStatus.loading.
Proof.
  apply (submit_loading_while_suspended prompted {| key := js "secret" |});
    vm_compute; reflexivity.
Defined.


(** X15.  [handlePromptSubmit] issues a remote call exactly when the prompt
    does not trim to the empty string, a transcription is present and a
    non-empty API key is configured; the prompt status plays no part, the
    handler has no check of its own against a run already in flight. *)
Theorem submit_calls_iff (w : World) (opened : Settled ResponseStream) :
  requests (finished (handlePromptSubmit opened w)) <> requests w
  <-> falsy (trim (prompt (app w))) = false
      /\ falsy (transcription (app w)) = false
      /\ ai w <> None.
Proof.
  destruct (falsy (trim (prompt (app w)))) eqn:Hp;
    [|destruct (falsy (transcription (app w))) eqn:Ht;
      [|destruct (ai w) as [client|] eqn:Hai]].
  - unfold handlePromptSubmit. rewrite Hp. cbn.
    split; [congruence | intros (H & _); discriminate].
  - unfold handlePromptSubmit. rewrite Hp, Ht. cbn.
    split; [congruence | intros (_ & H & _); discriminate].
  - split; [intros _; repeat split; discriminate|]. intros _.
    destruct (submit_finished_frame w client Hp Ht Hai opened) as (_ & H & _).
    rewrite H. cbn. apply app_not_self. discriminate.
  - unfold handlePromptSubmit. rewrite Hp, Ht, Hai. cbn.
    split; [congruence | intros (_ & _ & H); congruence].
Qed.

(** ** The copy actions and the derived flags *)

Lemma handleCopy_clipboard (w : World) :
  falsy (transcription (app w)) = false ->
  clipboard (handleCopy w) = clipboard w ++ [transcription (app w)]
  /\ copied (app (handleCopy w)) = true.
Proof. intros H. unfold handleCopy. rewrite H. split; reflexivity. Qed.

Lemma handlePromptCopy_clipboard (w : World) :
  falsy (promptResponse (app w)) = false ->
  clipboard (handlePromptCopy w) = clipboard w ++ [promptResponse (app w)]
  /\ promptCopied (app (handlePromptCopy w)) = true.
Proof. intros H. unfold handlePromptCopy. rewrite H. split; reflexivity. Qed.

(** X16.  A copy action changes nothing of the component state but its own
    copied-flag and never calls the remote service: after [handleCopy] the
    state is the one before with the transcript's flag possibly changed,
    after [handlePromptCopy] the one before with the lesson's flag possibly
    changed. *)
Theorem copy_frame (w : World) :
  app (handleCopy w) = app (setCopied (copied (app (handleCopy w))) w)
  /\ requests (handleCopy w) = requests w
  /\ app (handlePromptCopy w)
     = app (setPromptCopied (promptCopied (app (handlePromptCopy w))) w)
  /\ requests (handlePromptCopy w) = requests w.
Proof.
  unfold handleCopy, handlePromptCopy.
  destruct (falsy (transcription (app w))),
           (falsy (promptResponse (app w)));
    destruct w as [a k fi cb t q rq co]; destruct a; repeat split.
Qed.

(** X17.  After a transcription that succeeded, the copy button writes to the
    clipboard exactly the text that the generation request returned, and the
    transcript's copied-flag is up. *)
Theorem copy_after_transcribe w file client uploadedFile resultText :
  selectedFile (app w) = Some file ->
  ai w = Some client ->
  falsy resultText = false ->
  let run := handleTranscribe (Resolved (Some uploadedFile))
               (Resolved {| text := Some resultText |}) w in
  clipboard (handleCopy (finished run)) = clipboard w ++ [resultText]
  /\ copied (app (handleCopy (finished run))) = true.
Proof.
  intros Hfile Hai Ht run. subst run.
  rewrite (transcribe_text_run w file client Hfile Hai _ _ Ht).
  apply handleCopy_clipboard. exact Ht.
Qed.

Lemma copy_after_transcribe_witness :
  let run := handleTranscribe (Resolved (Some lecture_uploaded))
               (Resolved {| text := Some (js "Hello world.") |}) selected in
  clipboard (handleCopy (finished run))
  = clipboard selected ++ [js "Hello world."]
  /\ copied (app (handleCopy (finished run))) = true.
Proof.
  apply (copy_after_transcribe selected lecture {| key := js "secret" |}
           lecture_uploaded (js "Hello world.")); reflexivity.
Defined.

(** X18.  After a streaming run of [handlePromptSubmit], whether the stream
    ended or broke off, the lesson's copy button writes to the clipboard
    exactly the prompt response that the run left, provided it is not empty,
    and raises the lesson's copied-flag; nothing else had been written to the
    clipboard by the run. *)
Theorem copy_lesson_after_stream w client rs :
  falsy (trim (prompt (app w))) = false ->
  falsy (transcription (app w)) = false ->
  ai w = Some client ->
  let run := handlePromptSubmit (Resolved rs) w in
  falsy (promptResponse (app (finished run))) = false ->
  clipboard (finished run) = clipboard w
  /\ clipboard (handlePromptCopy (finished run))
     = clipboard w ++ [promptResponse (app (finished run))]
  /\ promptCopied (app (handlePromptCopy (finished run))) = true.
Proof.
  intros Hp Ht Hai run Hc. subst run.
  destruct (submit_finished_frame w client Hp Ht Hai (Resolved rs))
    as (Hside & _).
  assert (Hclip : clipboard (finished (handlePromptSubmit (Resolved rs) w))
                  = clipboard w).
  { unfold transcription_side in Hside. congruence. }
  destruct (handlePromptCopy_clipboard _ Hc) as [H1 H2].
  rewrite H1, H2, Hclip. repeat split.
Qed.

Lemma copy_lesson_after_stream_witness :
  let rs := {| chunks := [text_chunk (js "a"); {| text := None |}];
               failure := Some {| message := js "network" |} |} in
  let run := handlePromptSubmit (Resolved rs) prompted in
  clipboard (finished run) = clipboard prompted
  /\ clipboard (handlePromptCopy (finished run))
     = clipboard prompted ++ [promptResponse (app (finished run))]
  /\ promptCopied (app (handlePromptCopy (finished run))) = true.
Proof.
  intros rs.
  apply (copy_lesson_after_stream prompted {| key := js "secret" |} rs);
    vm_compute; reflexivity.
Defined.

(** X19.  The submit button is disabled exactly when the prompt consists of
    white space only (the empty prompt included) or a run is loading; a
    prompt that has one character which is not white space enables it
    whenever no run is loading. *)
Theorem submitDisabled_iff (a : App) :
  submitDisabled a = true
  <-> forallb isWhiteSpace (prompt a) = true
      \/ promptStatus a = PromptStatus.loading.
Proof.
  unfold submitDisabled. rewrite orb_true_iff, <- trim_nil.
  split; intros [H|H].
  - left. destruct (trim (prompt a)); [reflexivity | discriminate].
  - right. destruct (promptStatus a); try discriminate; reflexivity.
  - left. rewrite H. reflexivity.
  - right. rewrite H. reflexivity.
Qed.
